(** * SlackAlert: a Lightning callback posting alerts to Slack

    Shallow embedding of [src/callbacks/slack_alert.py].  The callback is a
    Python object with a few mutable fields; its three hooks read the
    trainer, mutate [self], call the collaborators [alert] and [print], and
    either return [None] or raise.  We model a hook as a computation over
    the instance:  it yields an outcome (returned / raised), the instance
    as the hook left it, and the list of outbound calls it made, in order. *)

From Stdlib Require Import ZArith List String Ascii Bool Lia DecimalString.
Import ListNotations.
Local Open Scope string_scope.
Local Open Scope Z_scope.

(** ** Python values used by the callback *)

(** An exception object.  [exc_id] stands for the object's identity,
    [exc_mro] for the names of the classes in the method resolution order
    of its type (so [isinstance] is membership), [exc_args] for its text. *)
Record PyExc : Type := mkExc {
  exc_id   : nat;
  exc_mro  : list string;
  exc_args : string
}.

Definition isinstance (e : PyExc) (cls : string) : bool :=
  existsb (String.eqb cls) (exc_mro e).

Definition KeyboardInterrupt : string := "KeyboardInterrupt".

(** [datetime.datetime] as the callback uses it. *)
Record datetime : Type := mkDatetime {
  year : nat; month : nat; day : nat;
  hour : nat; minute : nat; second : nat;
  microsecond : nat
}.

(** [dt.replace(microsecond=0)] *)
Definition replace_microsecond (dt : datetime) (us : nat) : datetime :=
  mkDatetime (year dt) (month dt) (day dt) (hour dt) (minute dt) (second dt) us.

(** [str(n)] for a Python [int]. *)
Definition str_int (n : Z) : string := NilZero.string_of_int (Z.to_int n).

Definition str_nat (n : nat) : string := str_int (Z.of_nat n).

(** Zero padding to a width, as [%02d] / [%04d]. *)
Fixpoint zeros (k : nat) : string :=
  match k with
  | O => ""
  | S k' => String "0" (zeros k')
  end.

Definition zfill (width : nat) (s : string) : string :=
  zeros (width - String.length s) ++ s.

(** [dt.strftime("%Y-%m-%d %H:%M:%S")] *)
Definition strftime_ymd_hms (dt : datetime) : string :=
  zfill 4 (str_nat (year dt)) ++ "-" ++ zfill 2 (str_nat (month dt)) ++ "-" ++
  zfill 2 (str_nat (day dt)) ++ " " ++ zfill 2 (str_nat (hour dt)) ++ ":" ++
  zfill 2 (str_nat (minute dt)) ++ ":" ++ zfill 2 (str_nat (second dt)).

(** [str(dt)]: the ISO form with a space separator; the fraction is
    printed only when [microsecond] is not zero. *)
Definition str_datetime (dt : datetime) : string :=
  strftime_ymd_hms dt ++
  match microsecond dt with
  | O => ""
  | us => "." ++ zfill 6 (str_nat us)
  end.

(** [s.capitalize()] on ASCII text: first character upper-cased, the
    others lower-cased; other code units are kept. *)
Definition is_lower (c : ascii) : bool :=
  let n := nat_of_ascii c in (Nat.leb 97 n && Nat.leb n 122)%bool.

Definition is_upper (c : ascii) : bool :=
  let n := nat_of_ascii c in (Nat.leb 65 n && Nat.leb n 90)%bool.

Definition to_upper (c : ascii) : ascii :=
  if is_lower c then ascii_of_nat (nat_of_ascii c - 32) else c.

Definition to_lower (c : ascii) : ascii :=
  if is_upper c then ascii_of_nat (nat_of_ascii c + 32) else c.

Fixpoint lower (s : string) : string :=
  match s with
  | EmptyString => EmptyString
  | String c s' => String (to_lower c) (lower s')
  end.

Definition capitalize (s : string) : string :=
  match s with
  | EmptyString => EmptyString
  | String c s' => String (to_upper c) (lower s')
  end.

(** ** The collaborators *)

(** What the hooks read from [trainer]: [trainer.current_epoch],
    [trainer.global_step], [str(trainer.strategy.root_device)] and the
    tracking run [trainer.logger.experiment] with its [id] and [url]. *)
Record Trainer : Type := mkTrainer {
  current_epoch : Z;
  global_step   : Z;
  root_device   : string;
  wandb_id      : string;
  wandb_url     : string
}.

(** What a hook reads from the process around it: the clock
    ([datetime.now()]), the text of the exception being handled
    ([traceback.format_exc()]), the machine's name
    ([socket.gethostname()]) and the rank of the process
    ([rank_zero_only.rank]). *)
Record Env : Type := mkEnv {
  now        : datetime;
  format_exc : string;
  gethostname : string;
  rank       : nat
}.

(** An outbound call: [alert(message)] or [print(text)]. *)
Inductive Event : Type :=
| Alert (message : string)
| Print (text : string).

Definition is_alert (ev : Event) : bool :=
  match ev with Alert _ => true | Print _ => false end.

Definition is_print (ev : Event) : bool :=
  match ev with Alert _ => false | Print _ => true end.

Definition alerts (evs : list Event) : list Event := filter is_alert evs.
Definition prints (evs : list Event) : list Event := filter is_print evs.

(** What [print(text)] puts on the terminal: the text and then a line
    end, so one line more than the text holds line breaks. *)
Fixpoint count_newlines (s : string) : nat :=
  match s with
  | EmptyString => O
  | String c s' =>
      ((if Ascii.eqb c (ascii_of_nat 10) then 1 else 0) + count_newlines s')%nat
  end.

Definition lines_of_print (text : string) : nat := S (count_newlines text).

(** The number of lines that the [print] calls of a hook put out. *)
Fixpoint printed_lines (evs : list Event) : nat :=
  match evs with
  | [] => O
  | Print text :: evs' => (lines_of_print text + printed_lines evs')%nat
  | Alert _ :: evs' => printed_lines evs'
  end.

(** ** The instance *)

Record SlackAlert : Type := mkSlackAlert {
  exception_only            : bool;
  pl_module_device          : option string;
  exception_occurred        : bool;
  disabled                  : bool;
  ignore_keyboard_interrupt : bool;
  at_epoch                  : option Z;
  at_global_step            : option Z;
  hostname                  : string
}.

Definition set_at_epoch (v : option Z) (self : SlackAlert) : SlackAlert :=
  mkSlackAlert (exception_only self) (pl_module_device self)
    (exception_occurred self) (disabled self)
    (ignore_keyboard_interrupt self) v (at_global_step self) (hostname self).

Definition set_at_global_step (v : option Z) (self : SlackAlert) : SlackAlert :=
  mkSlackAlert (exception_only self) (pl_module_device self)
    (exception_occurred self) (disabled self)
    (ignore_keyboard_interrupt self) (at_epoch self) v (hostname self).

Definition set_exception_occurred (v : bool) (self : SlackAlert) : SlackAlert :=
  mkSlackAlert (exception_only self) (pl_module_device self)
    v (disabled self)
    (ignore_keyboard_interrupt self) (at_epoch self) (at_global_step self)
    (hostname self).

(** ** Hooks as computations over the instance *)

Inductive Outcome (A : Type) : Type :=
| Returned (a : A)
| Raised (e : PyExc).
Arguments Returned {A} a.
Arguments Raised {A} e.

Record Run (A : Type) : Type := mkRun {
  outcome : Outcome A;
  final   : SlackAlert;
  events  : list Event
}.
Arguments mkRun {A} _ _ _.
Arguments outcome {A} _.
Arguments final {A} _.
Arguments events {A} _.

Definition Hook (A : Type) : Type := SlackAlert -> Run A.

Definition ret {A} (a : A) : Hook A :=
  fun self => mkRun (Returned a) self [].

Definition bind {A B} (m : Hook A) (k : A -> Hook B) : Hook B :=
  fun self =>
    let r := m self in
    match outcome r with
    | Returned a =>
        let r' := k a (final r) in
        mkRun (outcome r') (final r') (events r ++ events r')
    | Raised e => mkRun (Raised e) (final r) (events r)
    end.

Notation "x <- m ;; k" := (bind m (fun x => k))
  (at level 61, m at next level, right associativity).
Notation "m ;; k" := (bind m (fun _ => k))
  (at level 61, right associativity).

(** [raise e] *)
Definition raise {A} (e : PyExc) : Hook A :=
  fun self => mkRun (Raised e) self [].

(** reading [self] and assigning to one of its attributes *)
Definition get_self : Hook SlackAlert :=
  fun self => mkRun (Returned self) self [].

Definition assign (f : SlackAlert -> SlackAlert) : Hook unit :=
  fun self => mkRun (Returned tt) (f self) [].

(** Modelled from the spec: [alert] of [src/utils/helper.py], which is not
    among the sources.  The spec gives it as [alert(message: string) -> void],
    fire-and-forget text delivery: the call is recorded and returns. *)
Definition alert (message : string) : Hook unit :=
  fun self => mkRun (Returned tt) self [Alert message].

(** The builtin [print]. *)
Definition print (text : string) : Hook unit :=
  fun self => mkRun (Returned tt) self [Print text].

(** Modelled from the spec: the decorator [rank_zero_only] of
    [lightning.fabric.utilities], which is not among the sources.  The spec
    gives it as the rank-zero-only contract: the decorated hook runs on the
    designated process (rank 0) and is a no-op returning [None] on the
    others. *)
Definition rank_zero_only (env : Env) (fn : Hook unit) : Hook unit :=
  if Nat.eqb (rank env) 0 then fn else ret tt.

(** ** The callback *)

(** The newline character of the Python literals. *)
Definition nl : string := String (ascii_of_nat 10) EmptyString.

(** [SlackAlert.__init__] *)
Definition init (env : Env) (exception_only disabled ignore_keyboard_interrupt : bool)
    (at_epoch at_global_step : option Z) : SlackAlert :=
  {| exception_only := exception_only;
     pl_module_device := None;
     exception_occurred := false;
     disabled := disabled;
     ignore_keyboard_interrupt := ignore_keyboard_interrupt;
     at_epoch := at_epoch;
     at_global_step := at_global_step;
     hostname := gethostname env |}.

(** [threshold is not None and current >= threshold]; when the test holds
    the threshold's value is handed to the branch, which prints it. *)
Definition reached (threshold : option Z) (current : Z) : option Z :=
  match threshold with
  | Some n => if current >=? n then Some n else None
  | None => None
  end.

Definition epoch_title (n : Z) : string :=
  "Training progress: epoch " ++ str_int n ++ " completed".

Definition global_step_title (n : Z) : string :=
  "Training progress: global step " ++ str_int n ++ " completed".

(** The message built at the end of [on_train_epoch_end] from the title
    chosen by the branch. *)
Definition progress_message (title : string) (trainer : Trainer) (env : Env)
    (self : SlackAlert) : string :=
  let wandb_url := wandb_url trainer in
  let title := title ++ " for run `" ++ wandb_id trainer ++ "`" in
  let formatted_time := strftime_ymd_hms (now env) in
  let device := root_device trainer in
  "*" ++ title ++ "*" ++ nl ++ "Time completed: " ++ formatted_time ++ nl ++
  "Hostname: " ++ hostname self ++ nl ++ "Device: " ++ device ++ nl ++
  "Wandb URL: " ++ wandb_url ++ nl.

(** The common tail of [on_train_epoch_end] (lines 52-61). *)
Definition send_progress (title : string) (trainer : Trainer) (env : Env)
    : Hook unit :=
  self <- get_self ;;
  alert (progress_message title trainer env self) ;;
  ret tt.

(** [SlackAlert.on_train_epoch_end] *)
Definition on_train_epoch_end (trainer : Trainer) (env : Env) : Hook unit :=
  self <- get_self ;;
  match reached (at_epoch self) (current_epoch trainer) with
  | Some n =>
      assign (set_at_epoch None) ;;
      send_progress (epoch_title n) trainer env
  | None =>
      match reached (at_global_step self) (global_step trainer) with
      | Some n =>
          assign (set_at_global_step None) ;;
          send_progress (global_step_title n) trainer env
      | None => ret tt
      end
  end.

Definition exception_message (trainer : Trainer) (env : Env)
    (self : SlackAlert) : string :=
  let stack_trace := format_exc env in
  let device := root_device trainer in
  let now_ := replace_microsecond (now env) 0 in
  let title := "Exception Occurred" in
  "*" ++ title ++ "*```" ++ stack_trace ++ "```" ++ nl ++
  "Host: " ++ hostname self ++ nl ++ "Device: " ++ device ++ nl ++
  "Time: " ++ str_datetime now_.

Definition keyboard_interrupt_notice : string :=
  "SlackAlert: Encountered keyboard interrupt. Slack alert not sent." ++ nl ++
  "To enable slack alerts on keyboard interrupts, set `ignore_keyboard_interrupt` to False.".

(** [SlackAlert.on_exception] *)
Definition on_exception (trainer : Trainer) (env : Env) (exception : PyExc)
    : Hook unit :=
  self <- get_self ;;
  if disabled self then raise exception
  else
    let message := exception_message trainer env self in
    if isinstance exception KeyboardInterrupt && ignore_keyboard_interrupt self
    then
      print keyboard_interrupt_notice ;;
      raise exception
    else
      alert message ;;
      assign (set_exception_occurred true) ;;
      raise exception.

Definition completed_title (stage : string) : string :=
  capitalize stage ++ " completed".

Definition teardown_message (trainer : Trainer) (env : Env) (stage : string)
    (self : SlackAlert) : string :=
  let title := completed_title stage in
  let formatted_time := strftime_ymd_hms (now env) in
  let device := root_device trainer in
  "*" ++ title ++ "*" ++ nl ++ "```Time completed: " ++ formatted_time ++ nl ++
  "Hostname: " ++ hostname self ++ nl ++ "Device: " ++ device ++ "```".

(** The body of [SlackAlert.teardown], under the decorator. *)
Definition teardown_body (trainer : Trainer) (env : Env) (stage : string)
    : Hook unit :=
  self <- get_self ;;
  (if negb (exception_only self) && negb (exception_occurred self)
      && negb (disabled self)
   then alert (teardown_message trainer env stage self)
   else ret tt) ;;
  ret tt.

(** [SlackAlert.teardown] *)
Definition teardown (trainer : Trainer) (env : Env) (stage : string)
    : Hook unit :=
  rank_zero_only env (teardown_body trainer env stage).

(** The test of line 89, as a function of the instance. *)
Definition completion_wanted (s : SlackAlert) : bool :=
  negb (exception_only s) && negb (exception_occurred s) && negb (disabled s).

(** ** The training loop's calls

    The framework calls the hooks one after the other on the same
    instance; a hook that raised has still left its assignments behind. *)
Inductive Call : Type :=
| EpochEnd (trainer : Trainer) (env : Env)
| OnException (trainer : Trainer) (env : Env) (exception : PyExc)
| Teardown (trainer : Trainer) (env : Env) (stage : string).

Definition call (c : Call) : Hook unit :=
  match c with
  | EpochEnd trainer env => on_train_epoch_end trainer env
  | OnException trainer env exception => on_exception trainer env exception
  | Teardown trainer env stage => teardown trainer env stage
  end.

(** The instance after a sequence of calls. *)
Fixpoint after (cs : list Call) (self : SlackAlert) : SlackAlert :=
  match cs with
  | [] => self
  | c :: cs' => after cs' (final (call c self))
  end.

(** The outbound calls made over a sequence of calls, in order. *)
Fixpoint history (cs : list Call) (self : SlackAlert) : list Event :=
  match cs with
  | [] => []
  | c :: cs' => events (call c self) ++ history cs' (final (call c self))
  end.

Definition is_epoch_end (c : Call) : bool :=
  match c with EpochEnd _ _ => true | _ => false end.

Definition is_on_exception (c : Call) : bool :=
  match c with OnException _ _ _ => true | _ => false end.

(** The outbound calls that the [on_train_epoch_end] calls of a sequence
    made; the other hooks of the sequence run, but are not recorded. *)
Fixpoint progress_history (cs : list Call) (self : SlackAlert) : list Event :=
  match cs with
  | [] => []
  | c :: cs' =>
      (if is_epoch_end c then events (call c self) else []) ++
      progress_history cs' (final (call c self))
  end.

(** How many of the two thresholds are still set. *)
Definition armed (self : SlackAlert) : nat :=
  (match at_epoch self with Some _ => 1 | None => 0 end +
   match at_global_step self with Some _ => 1 | None => 0 end)%nat.

(** ** Sample values *)

Definition sample_trainer : Trainer :=
  mkTrainer 5 1200 "cuda:0" "a1b2c3" "https://wandb.ai/team/proj/runs/a1b2c3".

Definition sample_env : Env :=
  mkEnv (mkDatetime 2024 3 7 9 5 30 4021)
        "Traceback (most recent call last): RuntimeError: boom" "node17" 0.

Definition keyboard_interrupt : PyExc :=
  mkExc 1 ["KeyboardInterrupt"; "BaseException"; "object"] "".

Definition runtime_error : PyExc :=
  mkExc 2 ["RuntimeError"; "Exception"; "BaseException"; "object"] "boom".

Definition sample_self : SlackAlert :=
  init sample_env false false true (Some 3) (Some 1000).

(** An instance whose epoch threshold is still ahead of [sample_trainer]
    while its global-step threshold is reached. *)
Definition sample_self_step : SlackAlert :=
  init sample_env false false false (Some 10) (Some 1000).

Definition sample_self_disabled : SlackAlert :=
  init sample_env false true false (Some 3) None.

Definition sample_self_unset : SlackAlert :=
  init sample_env false false false None None.

Definition sample_env_rank1 : Env :=
  mkEnv (now sample_env) (format_exc sample_env) (gethostname sample_env) 1.

(** [sample_self] with [exception_only] and [disabled] set. *)
Definition sample_self_muted : SlackAlert :=
  init sample_env true true true (Some 3) (Some 1000).

(** A trainer further on in the run. *)
Definition later_trainer : Trainer :=
  mkTrainer 11 2400 "cuda:0" "a1b2c3" "https://wandb.ai/team/proj/runs/a1b2c3".

(** * Properties *)

(** ** The embedding on concrete inputs *)

Example str_int_samples :
  str_int 0 = "0" /\ str_int 1000 = "1000" /\ str_int (-5) = "-5".
Proof. repeat split. Qed.

Example capitalize_samples :
  capitalize "fit" = "Fit" /\ capitalize "vALIDATE" = "Validate" /\
  capitalize "" = "" /\ capitalize "2nd Pass" = "2nd pass".
Proof. repeat split. Qed.

Example clock_samples :
  strftime_ymd_hms (now sample_env) = "2024-03-07 09:05:30" /\
  str_datetime (now sample_env) = "2024-03-07 09:05:30.004021" /\
  str_datetime (replace_microsecond (now sample_env) 0) = "2024-03-07 09:05:30".
Proof. repeat split. Qed.

Example isinstance_samples :
  isinstance keyboard_interrupt KeyboardInterrupt = true /\
  isinstance runtime_error KeyboardInterrupt = false.
Proof. split; reflexivity. Qed.

(** Two epoch ends in a row on [sample_self], both thresholds reached:
    the first sends the epoch alert, the second the global-step alert,
    a third nothing. *)
Example three_epoch_ends :
  let c := EpochEnd sample_trainer sample_env in
  events (call c sample_self) =
    [Alert (progress_message (epoch_title 3) sample_trainer sample_env sample_self)] /\
  events (call c (after [c] sample_self)) =
    [Alert (progress_message (global_step_title 1000) sample_trainer sample_env
              sample_self)] /\
  events (call c (after [c; c] sample_self)) = [].
Proof. repeat split. Qed.

(** A run-time error on an instance with every flag false: one alert with
    the stack trace, the error raised again, and no alert at teardown. *)
Example runtime_error_then_teardown :
  let r := on_exception sample_trainer sample_env runtime_error sample_self_unset in
  events r = [Alert (exception_message sample_trainer sample_env sample_self_unset)] /\
  outcome r = Raised runtime_error /\
  events (teardown sample_trainer sample_env "fit" (final r)) = [].
Proof. repeat split. Qed.

(** ** The hook monad *)

Lemma bind_ret_l {A B} (a : A) (k : A -> Hook B) (self : SlackAlert) :
  bind (ret a) k self = k a self.
Proof. unfold bind, ret; cbn. now destruct (k a self). Qed.

Lemma bind_raise {A B} (e : PyExc) (k : A -> Hook B) (self : SlackAlert) :
  bind (raise e) k self = raise e self.
Proof. reflexivity. Qed.

Lemma bind_assoc {A B C} (m : Hook A) (k : A -> Hook B) (h : B -> Hook C)
    (self : SlackAlert) :
  bind (bind m k) h self = bind m (fun a => bind (k a) h) self.
Proof.
  unfold bind; cbn.
  destruct (outcome (m self)); cbn; [|reflexivity].
  destruct (outcome (k a (final (m self)))); cbn; [|reflexivity].
  now rewrite app_assoc.
Qed.

(** ** Text *)

Lemma string_append_assoc (a b c : string) :
  ((a ++ b) ++ c = a ++ (b ++ c))%string.
Proof.
  induction a as [|ch a IH]; cbn; [reflexivity | now rewrite IH].
Qed.

(** ** Reading the thresholds *)

Lemma reached_Some (threshold : option Z) (current n : Z) :
  reached threshold current = Some n <-> threshold = Some n /\ current >= n.
Proof.
  unfold reached. destruct threshold as [k|].
  - destruct (Z.geb_spec current k); split.
    + intros [= ->]. split; [reflexivity | lia].
    + now intros [[= ->] _].
    + discriminate.
    + intros [[= ->] ?]. lia.
  - split; [discriminate | now intros [? _]].
Qed.

Lemma reached_None (threshold : option Z) (current : Z) :
  reached threshold current = None <->
  threshold = None \/ exists n, threshold = Some n /\ current < n.
Proof.
  unfold reached. destruct threshold as [k|].
  - destruct (Z.geb_spec current k); split.
    + discriminate.
    + intros [? | [n [[= <-] ?]]]; [discriminate | lia].
    + intros _. right. exists k. split; [reflexivity | lia].
    + reflexivity.
  - split; [now left | reflexivity].
Qed.

(** ** [on_train_epoch_end], branch by branch *)

Section EpochEnd.
Variables (trainer : Trainer) (env : Env) (self : SlackAlert).

Lemma epoch_end_epoch_branch (n : Z) :
  reached (at_epoch self) (current_epoch trainer) = Some n ->
  on_train_epoch_end trainer env self =
  mkRun (Returned tt) (set_at_epoch None self)
        [Alert (progress_message (epoch_title n) trainer env self)].
Proof.
  intros H. unfold on_train_epoch_end, bind at 1. cbn.
  rewrite H. reflexivity.
Qed.

Lemma epoch_end_global_step_branch (m : Z) :
  reached (at_epoch self) (current_epoch trainer) = None ->
  reached (at_global_step self) (global_step trainer) = Some m ->
  on_train_epoch_end trainer env self =
  mkRun (Returned tt) (set_at_global_step None self)
        [Alert (progress_message (global_step_title m) trainer env self)].
Proof.
  intros He Hs. unfold on_train_epoch_end, bind at 1. cbn.
  rewrite He, Hs. reflexivity.
Qed.

Lemma epoch_end_else_branch :
  reached (at_epoch self) (current_epoch trainer) = None ->
  reached (at_global_step self) (global_step trainer) = None ->
  on_train_epoch_end trainer env self = mkRun (Returned tt) self [].
Proof.
  intros He Hs. unfold on_train_epoch_end, bind at 1. cbn.
  rewrite He, Hs. reflexivity.
Qed.
End EpochEnd.

(** ** [on_exception], path by path *)

Section OnException.
Variables (trainer : Trainer) (env : Env) (exception : PyExc)
          (self : SlackAlert).

Lemma on_exception_disabled :
  disabled self = true ->
  on_exception trainer env exception self = mkRun (Raised exception) self [].
Proof.
  intros H. unfold on_exception, bind at 1. cbn. rewrite H. reflexivity.
Qed.

Lemma on_exception_suppressed :
  disabled self = false ->
  isinstance exception KeyboardInterrupt && ignore_keyboard_interrupt self = true ->
  on_exception trainer env exception self =
  mkRun (Raised exception) self [Print keyboard_interrupt_notice].
Proof.
  intros Hd Hk. unfold on_exception, bind at 1. cbn. rewrite Hd, Hk.
  reflexivity.
Qed.

Lemma on_exception_alerted :
  disabled self = false ->
  isinstance exception KeyboardInterrupt && ignore_keyboard_interrupt self = false ->
  on_exception trainer env exception self =
  mkRun (Raised exception) (set_exception_occurred true self)
        [Alert (exception_message trainer env self)].
Proof.
  intros Hd Hk. unfold on_exception, bind at 1. cbn. rewrite Hd, Hk.
  reflexivity.
Qed.
End OnException.

(** ** [teardown] *)

Section Teardown.
Variables (trainer : Trainer) (env : Env) (stage : string)
          (self : SlackAlert).

Lemma teardown_body_run :
  teardown_body trainer env stage self =
  mkRun (Returned tt) self
        (if completion_wanted self
         then [Alert (teardown_message trainer env stage self)] else []).
Proof.
  unfold teardown_body, completion_wanted, bind at 1. cbn.
  destruct (negb (exception_only self) && negb (exception_occurred self)
            && negb (disabled self)); reflexivity.
Qed.

Lemma teardown_rank_zero :
  rank env = 0%nat ->
  teardown trainer env stage self = teardown_body trainer env stage self.
Proof. intros H. unfold teardown, rank_zero_only. now rewrite H. Qed.

Lemma teardown_other_rank :
  rank env <> 0%nat ->
  teardown trainer env stage self = mkRun (Returned tt) self [].
Proof.
  intros H. unfold teardown, rank_zero_only.
  destruct (Nat.eqb_spec (rank env) 0); [contradiction | reflexivity].
Qed.

Lemma completion_wanted_true :
  completion_wanted self = true <->
  exception_only self = false /\ exception_occurred self = false /\
  disabled self = false.
Proof.
  unfold completion_wanted.
  destruct (exception_only self), (exception_occurred self), (disabled self);
    cbn; intuition congruence.
Qed.
End Teardown.

(** ** What no hook ever assigns *)

(** Case analysis on the path a hook takes: the run in the goal is
    replaced by its value on each path. *)
Ltac hook_paths :=
  match goal with
  | |- context [on_train_epoch_end ?t ?e ?s] =>
      let He := fresh "He" in
      let Hs := fresh "Hs" in
      destruct (reached (at_epoch s) (current_epoch t)) eqn:He;
      [ rewrite (epoch_end_epoch_branch t e s _ He)
      | destruct (reached (at_global_step s) (global_step t)) eqn:Hs;
        [ rewrite (epoch_end_global_step_branch t e s _ He Hs)
        | rewrite (epoch_end_else_branch t e s He Hs) ] ]
  | |- context [on_exception ?t ?e ?x ?s] =>
      let Hd := fresh "Hd" in
      let Hk := fresh "Hk" in
      destruct (disabled s) eqn:Hd;
      [ rewrite (on_exception_disabled t e x s Hd)
      | destruct (isinstance x KeyboardInterrupt && ignore_keyboard_interrupt s)
          eqn:Hk;
        [ rewrite (on_exception_suppressed t e x s Hd Hk)
        | rewrite (on_exception_alerted t e x s Hd Hk) ] ]
  | |- context [teardown ?t ?e ?st ?s] =>
      let Hr := fresh "Hr" in
      destruct (Nat.eq_dec (rank e) 0) as [Hr|Hr];
      [ rewrite (teardown_rank_zero t e st s Hr), (teardown_body_run t e st s)
      | rewrite (teardown_other_rank t e st s Hr) ]
  end.

(** A threshold that is unset stays unset through any call: the only
    assignments to [at_epoch] and [at_global_step] store [None]. *)
Lemma call_keeps_at_epoch_unset (c : Call) (self : SlackAlert) :
  at_epoch self = None -> at_epoch (final (call c self)) = None.
Proof.
  intros H. destruct c; cbn [call]; hook_paths; cbn; assumption || reflexivity.
Qed.

Lemma call_keeps_at_global_step_unset (c : Call) (self : SlackAlert) :
  at_global_step self = None -> at_global_step (final (call c self)) = None.
Proof.
  intros H. destruct c; cbn [call]; hook_paths; cbn; assumption || reflexivity.
Qed.

Lemma after_keeps_at_epoch_unset (cs : list Call) :
  forall self, at_epoch self = None -> at_epoch (after cs self) = None.
Proof.
  induction cs as [|c cs IH]; intros self H; cbn [after].
  - exact H.
  - apply IH. now apply call_keeps_at_epoch_unset.
Qed.

Lemma after_keeps_at_global_step_unset (cs : list Call) :
  forall self, at_global_step self = None -> at_global_step (after cs self) = None.
Proof.
  induction cs as [|c cs IH]; intros self H; cbn [after].
  - exact H.
  - apply IH. now apply call_keeps_at_global_step_unset.
Qed.

(** [exception_occurred] is sticky: the only assignment to it stores
    [True]. *)
Lemma call_keeps_exception_occurred (c : Call) (self : SlackAlert) :
  exception_occurred self = true ->
  exception_occurred (final (call c self)) = true.
Proof.
  intros H. destruct c; cbn [call]; hook_paths; cbn; assumption || reflexivity.
Qed.

Lemma after_keeps_exception_occurred (cs : list Call) :
  forall self,
    exception_occurred self = true -> exception_occurred (after cs self) = true.
Proof.
  induction cs as [|c cs IH]; intros self H; cbn [after].
  - exact H.
  - apply IH. now apply call_keeps_exception_occurred.
Qed.

(** The two threshold titles never coincide, whatever the numbers and
    the rest of the message. *)
Lemma progress_messages_differ (k m : Z) (t t' : Trainer) (e e' : Env)
    (s s' : SlackAlert) :
  progress_message (epoch_title k) t e s <>
  progress_message (global_step_title m) t' e' s'.
Proof.
  unfold progress_message, epoch_title, global_step_title. cbn.
  intros H. discriminate H.
Qed.

(** * The claims *)

(** C1, as the spec words it, does not hold: with [disabled = false],
    a [KeyboardInterrupt] met while [ignore_keyboard_interrupt] is set
    leaves [exception_occurred] at [False]. *)
Lemma exception_seen_unconditionally_fails :
  ~ (forall trainer env exception self,
        disabled self = false ->
        exception_occurred (final (on_exception trainer env exception self)) = true).
Proof.
  intros H.
  specialize (H sample_trainer sample_env keyboard_interrupt sample_self eq_refl).
  discriminate H.
Qed.

(** C1 (amended).  When [disabled] is false, [on_exception] leaves
    [exception_occurred] true, except on the path guarded by
    [isinstance(exception, KeyboardInterrupt) and self.ignore_keyboard_interrupt],
    where the flag keeps the value it had before the call. *)
Theorem on_exception_marks_exception :
  forall trainer env exception self,
    disabled self = false ->
    exception_occurred (final (on_exception trainer env exception self)) =
    if isinstance exception KeyboardInterrupt && ignore_keyboard_interrupt self
    then exception_occurred self
    else true.
Proof.
  intros trainer env exception self Hd.
  destruct (isinstance exception KeyboardInterrupt
            && ignore_keyboard_interrupt self) eqn:Hk.
  - now rewrite on_exception_suppressed.
  - now rewrite on_exception_alerted.
Qed.

Lemma on_exception_marks_exception_witness :
  disabled sample_self = false /\
  exception_occurred
    (final (on_exception sample_trainer sample_env runtime_error sample_self)) = true.
Proof.
  split; [reflexivity|].
  exact (on_exception_marks_exception sample_trainer sample_env runtime_error
           sample_self eq_refl).
Defined.

(** C2.  Whatever the exception and the flags, [on_exception] ends by
    raising the very exception object it was given: it never returns and
    never raises another one. *)
Theorem on_exception_reraises :
  forall trainer env exception self,
    outcome (on_exception trainer env exception self) = Raised exception.
Proof.
  intros trainer env exception self.
  hook_paths; reflexivity.
Qed.

(** C3.  When both thresholds are set and both are reached at an epoch
    end, the call sends exactly one alert, the epoch one; [at_epoch] is
    cleared and [at_global_step] is still set. *)
Theorem epoch_threshold_has_priority :
  forall trainer env self n m,
    at_epoch self = Some n -> current_epoch trainer >= n ->
    at_global_step self = Some m -> global_step trainer >= m ->
    let r := on_train_epoch_end trainer env self in
    events r = [Alert (progress_message (epoch_title n) trainer env self)] /\
    at_epoch (final r) = None /\
    at_global_step (final r) = Some m /\
    outcome r = Returned tt.
Proof.
  intros trainer env self n m He Hge Hs _ r. subst r.
  assert (Hr : reached (at_epoch self) (current_epoch trainer) = Some n)
    by now apply reached_Some.
  rewrite (epoch_end_epoch_branch _ env _ _ Hr). cbn.
  now repeat split.
Qed.

Lemma epoch_threshold_has_priority_witness :
  let r := on_train_epoch_end sample_trainer sample_env sample_self in
  events r =
    [Alert (progress_message (epoch_title 3) sample_trainer sample_env sample_self)] /\
  at_epoch (final r) = None /\
  at_global_step (final r) = Some 1000 /\
  outcome r = Returned tt.
Proof.
  apply (epoch_threshold_has_priority sample_trainer sample_env sample_self 3 1000).
  - reflexivity.
  - cbn. lia.
  - reflexivity.
  - cbn. lia.
Defined.

(** C4.  A threshold fires once.  At the epoch end where the epoch
    threshold fires, [at_epoch] becomes [None]; after any further calls of
    the hooks it is still [None], and no later epoch end sends the epoch
    alert, whatever the epoch reached.  The same holds for the global-step
    threshold at the epoch end where it fires. *)
Theorem thresholds_fire_once :
  forall trainer env self,
    let r := on_train_epoch_end trainer env self in
    (forall n,
        at_epoch self = Some n -> current_epoch trainer >= n ->
        events r = [Alert (progress_message (epoch_title n) trainer env self)] /\
        at_epoch (final r) = None /\
        forall cs trainer' env',
          let later := after cs (final r) in
          at_epoch later = None /\
          forall k s,
            ~ In (Alert (progress_message (epoch_title k) trainer' env' s))
                 (events (on_train_epoch_end trainer' env' later)))
    /\
    (forall m,
        reached (at_epoch self) (current_epoch trainer) = None ->
        at_global_step self = Some m -> global_step trainer >= m ->
        events r = [Alert (progress_message (global_step_title m) trainer env self)] /\
        at_global_step (final r) = None /\
        forall cs trainer' env',
          let later := after cs (final r) in
          at_global_step later = None /\
          forall k s,
            ~ In (Alert (progress_message (global_step_title k) trainer' env' s))
                 (events (on_train_epoch_end trainer' env' later))).
Proof.
  intros trainer env self r. subst r. split.
  - intros n He Hge.
    assert (Hr : reached (at_epoch self) (current_epoch trainer) = Some n)
      by now apply reached_Some.
    rewrite (epoch_end_epoch_branch _ env _ _ Hr). cbn [events final].
    split; [reflexivity|]. split; [reflexivity|].
    intros cs trainer' env'. set (later := after cs _).
    assert (Hl : at_epoch later = None)
      by (apply after_keeps_at_epoch_unset; reflexivity).
    split; [exact Hl|]. intros k s Hin.
    assert (He' : reached (at_epoch later) (current_epoch trainer') = None)
      by now rewrite Hl.
    destruct (reached (at_global_step later) (global_step trainer')) as [m|] eqn:Hs.
    + rewrite (epoch_end_global_step_branch _ env' _ _ He' Hs) in Hin.
      destruct Hin as [Heq | []].
      apply (progress_messages_differ k m trainer' trainer' env' env' s later).
      congruence.
    + rewrite (epoch_end_else_branch _ env' _ He' Hs) in Hin. exact Hin.
  - intros m He Hs Hge.
    assert (Hr : reached (at_global_step self) (global_step trainer) = Some m)
      by now apply reached_Some.
    rewrite (epoch_end_global_step_branch _ env _ _ He Hr). cbn [events final].
    split; [reflexivity|]. split; [reflexivity|].
    intros cs trainer' env'. set (later := after cs _).
    assert (Hl : at_global_step later = None)
      by (apply after_keeps_at_global_step_unset; reflexivity).
    split; [exact Hl|]. intros k s Hin.
    assert (Hs' : reached (at_global_step later) (global_step trainer') = None)
      by now rewrite Hl.
    destruct (reached (at_epoch later) (current_epoch trainer')) as [n|] eqn:He'.
    + rewrite (epoch_end_epoch_branch _ env' _ _ He') in Hin.
      destruct Hin as [Heq | []].
      apply (progress_messages_differ n k trainer' trainer' env' env' later s).
      congruence.
    + rewrite (epoch_end_else_branch _ env' _ He' Hs') in Hin. exact Hin.
Qed.

Lemma thresholds_fire_once_witness :
  (at_epoch sample_self = Some 3 /\ current_epoch sample_trainer >= 3 /\
   at_epoch (final (on_train_epoch_end sample_trainer sample_env sample_self)) = None)
  /\
  (reached (at_epoch sample_self_step) (current_epoch sample_trainer) = None /\
   at_global_step sample_self_step = Some 1000 /\
   global_step sample_trainer >= 1000 /\
   at_global_step
     (final (on_train_epoch_end sample_trainer sample_env sample_self_step)) = None).
Proof.
  split.
  - split; [reflexivity|]. split; [cbn; lia|].
    refine (proj1 (proj2 (proj1
      (thresholds_fire_once sample_trainer sample_env sample_self) 3 eq_refl _))).
    cbn; lia.
  - split; [reflexivity|]. split; [reflexivity|]. split; [cbn; lia|].
    refine (proj1 (proj2 (proj2
      (thresholds_fire_once sample_trainer sample_env sample_self_step)
      1000 eq_refl eq_refl _))).
    cbn; lia.
Defined.

(** C5.  With [disabled] set, [on_exception] makes no outbound call at
    all (no alert, no print), leaves every field of the instance as it
    was, and raises the exception it was given. *)
Theorem disabled_on_exception_is_silent :
  forall trainer env exception self,
    disabled self = true ->
    let r := on_exception trainer env exception self in
    alerts (events r) = [] /\ prints (events r) = [] /\ events r = [] /\
    final r = self /\
    outcome r = Raised exception.
Proof.
  intros trainer env exception self Hd r. subst r.
  rewrite on_exception_disabled by exact Hd. cbn.
  now repeat split.
Qed.

Lemma disabled_on_exception_is_silent_witness :
  disabled sample_self_disabled = true /\
  let r := on_exception sample_trainer sample_env runtime_error sample_self_disabled in
  alerts (events r) = [] /\ prints (events r) = [] /\ events r = [] /\
  final r = sample_self_disabled /\
  outcome r = Raised runtime_error.
Proof.
  split; [reflexivity|].
  apply (disabled_on_exception_is_silent sample_trainer sample_env runtime_error
           sample_self_disabled).
  reflexivity.
Defined.

(** C6, as the spec words it, does not hold: on the suppressed path the
    one [print] call puts out two lines, not one, because its text holds a
    line break. *)
Lemma one_printed_line_fails :
  ~ (forall trainer env exception self,
        disabled self = false ->
        ignore_keyboard_interrupt self = true ->
        isinstance exception KeyboardInterrupt = true ->
        let r := on_exception trainer env exception self in
        alerts (events r) = [] /\
        printed_lines (events r) = 1%nat /\
        outcome r = Raised exception).
Proof.
  intros H.
  destruct (H sample_trainer sample_env keyboard_interrupt sample_self
              eq_refl eq_refl eq_refl) as (_ & Hlines & _).
  vm_compute in Hlines. discriminate Hlines.
Qed.

(** C6 (amended).  Not disabled, [ignore_keyboard_interrupt] set, and the
    exception an instance of [KeyboardInterrupt]: no alert is sent; the
    only outbound call is one [print], of two lines, the first saying that
    a keyboard interrupt was met and the Slack alert not sent, the second
    that [ignore_keyboard_interrupt] is to be set to False to have such
    alerts; and the same exception is raised. *)
Theorem keyboard_interrupt_is_suppressed :
  forall trainer env exception self,
    disabled self = false ->
    ignore_keyboard_interrupt self = true ->
    isinstance exception KeyboardInterrupt = true ->
    let r := on_exception trainer env exception self in
    alerts (events r) = [] /\
    events r =
      [Print ("SlackAlert: Encountered keyboard interrupt. Slack alert not sent."
              ++ nl ++
              "To enable slack alerts on keyboard interrupts, set `ignore_keyboard_interrupt` to False.")] /\
    printed_lines (events r) = 2%nat /\
    outcome r = Raised exception.
Proof.
  intros trainer env exception self Hd Hi Hk r. subst r.
  rewrite on_exception_suppressed; [| exact Hd | now rewrite Hi, Hk].
  cbn [events outcome]. repeat split.
Qed.

Lemma keyboard_interrupt_is_suppressed_witness :
  disabled sample_self = false /\
  ignore_keyboard_interrupt sample_self = true /\
  isinstance keyboard_interrupt KeyboardInterrupt = true /\
  let r := on_exception sample_trainer sample_env keyboard_interrupt sample_self in
  alerts (events r) = [] /\
  events r =
    [Print ("SlackAlert: Encountered keyboard interrupt. Slack alert not sent."
            ++ nl ++
            "To enable slack alerts on keyboard interrupts, set `ignore_keyboard_interrupt` to False.")] /\
  printed_lines (events r) = 2%nat /\
  outcome r = Raised keyboard_interrupt.
Proof.
  split; [reflexivity|]. split; [reflexivity|]. split; [reflexivity|].
  apply (keyboard_interrupt_is_suppressed sample_trainer sample_env
           keyboard_interrupt sample_self); reflexivity.
Defined.

(** C7.  On the rank-zero process, [teardown] sends one alert, whose
    title is the capitalized stage followed by " completed", exactly when
    [exception_only], [exception_occurred] and [disabled] are all false;
    otherwise it sends nothing.  Either way it returns and leaves the
    instance as it was. *)
Theorem teardown_completion_alert :
  forall trainer env stage self,
    rank env = 0%nat ->
    let r := teardown trainer env stage self in
    let wanted := exception_only self = false /\ exception_occurred self = false
                  /\ disabled self = false in
    (wanted ->
     events r = [Alert (teardown_message trainer env stage self)] /\
     exists rest,
       teardown_message trainer env stage self =
       "*" ++ capitalize stage ++ " completed*" ++ rest) /\
    (~ wanted -> events r = []) /\
    final r = self /\
    outcome r = Returned tt.
Proof.
  intros trainer env stage self Hr r wanted. subst r wanted.
  rewrite teardown_rank_zero by exact Hr. rewrite teardown_body_run.
  cbn [events final outcome].
  pose proof (completion_wanted_true self) as Hw.
  destruct (completion_wanted self).
  - split; [|split; [|split; reflexivity]].
    + intros _. split; [reflexivity|].
      unfold teardown_message, completed_title.
      rewrite string_append_assoc. cbn. eexists. reflexivity.
    + intros Hn. exfalso. apply Hn. now apply Hw.
  - split; [|split; [|split; reflexivity]].
    + intros H. apply Hw in H. discriminate H.
    + reflexivity.
Qed.

Lemma teardown_completion_alert_witness :
  rank sample_env = 0%nat /\
  events (teardown sample_trainer sample_env "fit" sample_self) =
  [Alert (teardown_message sample_trainer sample_env "fit" sample_self)].
Proof.
  split; [reflexivity|].
  refine (proj1 (proj1
    (teardown_completion_alert sample_trainer sample_env "fit" sample_self eq_refl) _)).
  repeat split.
Defined.

(** C8.  At an epoch end where neither threshold fires (each one is
    unset, or set and not yet reached), no outbound call is made, the
    hook returns, and every field of the instance is as before. *)
Theorem epoch_end_without_threshold_is_noop :
  forall trainer env self,
    (at_epoch self = None \/
     exists n, at_epoch self = Some n /\ current_epoch trainer < n) ->
    (at_global_step self = None \/
     exists m, at_global_step self = Some m /\ global_step trainer < m) ->
    let r := on_train_epoch_end trainer env self in
    events r = [] /\ final r = self /\ outcome r = Returned tt.
Proof.
  intros trainer env self He Hs r. subst r.
  apply reached_None in He. apply reached_None in Hs.
  rewrite (epoch_end_else_branch _ env _ He Hs).
  now repeat split.
Qed.

Lemma epoch_end_without_threshold_is_noop_witness :
  at_epoch sample_self_unset = None /\
  at_global_step sample_self_unset = None /\
  let r := on_train_epoch_end sample_trainer sample_env sample_self_unset in
  events r = [] /\ final r = sample_self_unset /\ outcome r = Returned tt.
Proof.
  split; [reflexivity|]. split; [reflexivity|].
  apply (epoch_end_without_threshold_is_noop sample_trainer sample_env
           sample_self_unset); left; reflexivity.
Defined.

(** C9.  On a process whose rank is not zero, [teardown] makes no
    outbound call, returns, and leaves the instance untouched, whatever
    [exception_only], [exception_occurred] and [disabled] are. *)
Theorem teardown_off_rank_zero_is_noop :
  forall trainer env stage self,
    rank env <> 0%nat ->
    let r := teardown trainer env stage self in
    events r = [] /\ final r = self /\ outcome r = Returned tt.
Proof.
  intros trainer env stage self Hr r. subst r.
  rewrite teardown_other_rank by exact Hr.
  now repeat split.
Qed.

Lemma teardown_off_rank_zero_is_noop_witness :
  rank sample_env_rank1 <> 0%nat /\
  let r := teardown sample_trainer sample_env_rank1 "fit" sample_self in
  events r = [] /\ final r = sample_self /\ outcome r = Returned tt.
Proof.
  split; [discriminate|].
  apply (teardown_off_rank_zero_is_noop sample_trainer sample_env_rank1 "fit"
           sample_self).
  discriminate.
Defined.

(** C10.  On the suppressed path of [on_exception] (not disabled,
    [ignore_keyboard_interrupt] set, exception a [KeyboardInterrupt]) the
    instance is left as it was, so [exception_occurred] keeps its value;
    when that value and [exception_only] are false, a later [teardown] on
    the rank-zero process still sends the "completed" alert. *)
Theorem suppressed_interrupt_keeps_completion_alert :
  forall trainer env exception self,
    disabled self = false ->
    ignore_keyboard_interrupt self = true ->
    isinstance exception KeyboardInterrupt = true ->
    let self' := final (on_exception trainer env exception self) in
    self' = self /\
    exception_occurred self' = exception_occurred self /\
    forall trainer' env' stage,
      exception_occurred self = false ->
      exception_only self = false ->
      rank env' = 0%nat ->
      events (teardown trainer' env' stage self') =
      [Alert (teardown_message trainer' env' stage self)].
Proof.
  intros trainer env exception self Hd Hi Hk self'. subst self'.
  rewrite on_exception_suppressed; [| exact Hd | now rewrite Hi, Hk].
  cbn [final]. split; [reflexivity|]. split; [reflexivity|].
  intros trainer' env' stage Ho He Hr.
  rewrite teardown_rank_zero by exact Hr. rewrite teardown_body_run.
  cbn [events].
  replace (completion_wanted self) with true; [reflexivity|].
  symmetry. apply completion_wanted_true. now repeat split.
Qed.

Lemma suppressed_interrupt_keeps_completion_alert_witness :
  disabled sample_self = false /\
  ignore_keyboard_interrupt sample_self = true /\
  isinstance keyboard_interrupt KeyboardInterrupt = true /\
  events (teardown sample_trainer sample_env "fit"
            (final (on_exception sample_trainer sample_env keyboard_interrupt
                      sample_self))) =
  [Alert (teardown_message sample_trainer sample_env "fit" sample_self)].
Proof.
  split; [reflexivity|]. split; [reflexivity|]. split; [reflexivity|].
  refine (proj2 (proj2
    (suppressed_interrupt_keeps_completion_alert sample_trainer sample_env
       keyboard_interrupt sample_self eq_refl eq_refl eq_refl))
    sample_trainer sample_env "fit" eq_refl eq_refl eq_refl).
Defined.

(** * Further properties of the callback *)

(** ** Helpers *)

Lemma string_append_nil_r (a : string) : (a ++ "")%string = a.
Proof. induction a as [|ch a IH]; cbn; [reflexivity | now rewrite IH]. Qed.

Lemma call_keeps_configuration (c : Call) (self : SlackAlert) :
  exception_only (final (call c self)) = exception_only self /\
  disabled (final (call c self)) = disabled self /\
  ignore_keyboard_interrupt (final (call c self)) = ignore_keyboard_interrupt self /\
  hostname (final (call c self)) = hostname self /\
  pl_module_device (final (call c self)) = pl_module_device self.
Proof.
  destruct c; cbn [call]; hook_paths; cbn; repeat split; assumption.
Qed.

Lemma teardown_message_hostname (trainer : Trainer) (env : Env) (stage : string)
    (s s' : SlackAlert) :
  hostname s = hostname s' ->
  teardown_message trainer env stage s = teardown_message trainer env stage s'.
Proof. intros H. unfold teardown_message. now rewrite H. Qed.

Lemma progress_message_hostname (title : string) (trainer : Trainer) (env : Env)
    (s s' : SlackAlert) :
  hostname s = hostname s' ->
  progress_message title trainer env s = progress_message title trainer env s'.
Proof. intros H. unfold progress_message. now rewrite H. Qed.

Lemma teardown_after_exception (trainer : Trainer) (env : Env) (stage : string)
    (self : SlackAlert) :
  exception_occurred self = true ->
  events (teardown trainer env stage self) = [].
Proof.
  intros H. hook_paths; [|reflexivity].
  unfold completion_wanted. rewrite H. cbn.
  now rewrite andb_false_r.
Qed.

Lemma teardown_when_disabled (trainer : Trainer) (env : Env) (stage : string)
    (self : SlackAlert) :
  disabled self = true ->
  events (teardown trainer env stage self) = [].
Proof.
  intros H. hook_paths; [|reflexivity].
  unfold completion_wanted. rewrite H. cbn.
  now rewrite andb_false_r.
Qed.

Lemma epoch_end_conserves_armed (trainer : Trainer) (env : Env) (self : SlackAlert) :
  (List.length (events (on_train_epoch_end trainer env self)) +
   armed (final (on_train_epoch_end trainer env self)) = armed self)%nat.
Proof.
  hook_paths; cbn [events final List.length]; unfold armed; cbn.
  - apply reached_Some in He. destruct He as [-> _]. reflexivity.
  - apply reached_Some in Hs. destruct Hs as [-> _].
    destruct (at_epoch self); reflexivity.
  - reflexivity.
Qed.

Lemma other_hooks_keep_thresholds (c : Call) (self : SlackAlert) :
  is_epoch_end c = false ->
  at_epoch (final (call c self)) = at_epoch self /\
  at_global_step (final (call c self)) = at_global_step self.
Proof.
  intros H. destruct c; [discriminate H | |]; cbn [call]; hook_paths; cbn;
    split; reflexivity.
Qed.

Lemma configuration_never_changes_aux (cs : list Call) :
  forall self,
    exception_only (after cs self) = exception_only self /\
    disabled (after cs self) = disabled self /\
    ignore_keyboard_interrupt (after cs self) = ignore_keyboard_interrupt self /\
    hostname (after cs self) = hostname self /\
    pl_module_device (after cs self) = pl_module_device self.
Proof.
  induction cs as [|c cs IH]; intros self; cbn [after].
  - repeat split.
  - destruct (IH (final (call c self))) as (E1 & E2 & E3 & E4 & E5).
    destruct (call_keeps_configuration c self) as (F1 & F2 & F3 & F4 & F5).
    repeat split; congruence.
Qed.

Lemma after_without_exception (cs : list Call) :
  forall self,
    forallb (fun c => negb (is_on_exception c)) cs = true ->
    exception_occurred (after cs self) = exception_occurred self.
Proof.
  induction cs as [|c cs IH]; intros self H; cbn [after].
  - reflexivity.
  - cbn [forallb] in H. apply andb_true_iff in H. destruct H as [Hc Hcs].
    rewrite (IH _ Hcs).
    destruct c; [| discriminate Hc |]; cbn [call]; hook_paths; reflexivity.
Qed.

(** ** The instance over a whole run *)

(** X1.  No hook assigns to the configuration: after any sequence of
    calls [exception_only], [disabled], [ignore_keyboard_interrupt],
    [hostname] and [pl_module_device] are what they were. *)
Theorem configuration_never_changes :
  forall cs self,
    exception_only (after cs self) = exception_only self /\
    disabled (after cs self) = disabled self /\
    ignore_keyboard_interrupt (after cs self) = ignore_keyboard_interrupt self /\
    hostname (after cs self) = hostname self /\
    pl_module_device (after cs self) = pl_module_device self.
Proof.
  intros cs self. apply configuration_never_changes_aux.
Qed.

(** X2.  [exception_occurred] is never reset: once it is true it is true
    after any sequence of calls. *)
Theorem exception_flag_is_sticky :
  forall cs self,
    exception_occurred self = true ->
    exception_occurred (after cs self) = true.
Proof.
  induction cs as [|c cs IH]; intros self H; cbn [after].
  - exact H.
  - apply IH. now apply call_keeps_exception_occurred.
Qed.

Lemma exception_flag_is_sticky_witness :
  let seen := final (on_exception sample_trainer sample_env runtime_error sample_self) in
  let cs := [EpochEnd sample_trainer sample_env;
             OnException sample_trainer sample_env keyboard_interrupt;
             Teardown sample_trainer sample_env "fit"] in
  exception_occurred seen = true /\ exception_occurred (after cs seen) = true.
Proof.
  intros seen cs. split; [reflexivity|].
  apply (exception_flag_is_sticky cs seen). reflexivity.
Defined.

(** X3.  A hook makes at most one outbound call, so a sequence of calls
    makes at most as many outbound calls as it has hooks. *)
Theorem at_most_one_outbound_call :
  (forall c self, (List.length (events (call c self)) <= 1)%nat) /\
  (forall cs self, (List.length (history cs self) <= List.length cs)%nat).
Proof.
  assert (H1 : forall c self, (List.length (events (call c self)) <= 1)%nat).
  { intros c self. destruct c; cbn [call]; hook_paths; cbn [events List.length];
      try lia.
    destruct (completion_wanted self); cbn; lia. }
  split; [exact H1|].
  induction cs as [|c cs IH]; intros self; cbn [history List.length].
  - lia.
  - rewrite List.length_app. specialize (H1 c self).
    specialize (IH (final (call c self))). lia.
Qed.

(** X4.  Threshold alerts are paid out of the set thresholds: over any
    sequence of calls, the number of outbound calls made by the epoch ends
    plus the number of thresholds still set equals the number set at the
    start.  So a run sees at most two threshold alerts. *)
Theorem threshold_alerts_are_conserved :
  forall cs self,
    (List.length (progress_history cs self) + armed (after cs self) = armed self)%nat /\
    (List.length (progress_history cs self) <= 2)%nat.
Proof.
  assert (Hc : forall cs self,
    (List.length (progress_history cs self) + armed (after cs self) = armed self)%nat).
  { induction cs as [|c cs IH]; intros self; cbn [progress_history after].
    - reflexivity.
    - rewrite List.length_app. specialize (IH (final (call c self))).
      destruct c as [trainer env | trainer env exception | trainer env stage].
      + cbn [is_epoch_end]. cbn [call] in *.
        pose proof (epoch_end_conserves_armed trainer env self). lia.
      + destruct (other_hooks_keep_thresholds
                    (OnException trainer env exception) self eq_refl) as [E1 E2].
        cbn [is_epoch_end List.length]. unfold armed in *. rewrite E1, E2 in IH. lia.
      + destruct (other_hooks_keep_thresholds
                    (Teardown trainer env stage) self eq_refl) as [E1 E2].
        cbn [is_epoch_end List.length]. unfold armed in *. rewrite E1, E2 in IH. lia. }
  intros cs self. split; [apply Hc|].
  specialize (Hc cs self).
  assert (armed self <= 2)%nat
    by (unfold armed; destruct (at_epoch self), (at_global_step self); cbn; lia).
  lia.
Qed.

(** X5.  [on_train_epoch_end] reads only the two thresholds and the host
    name of the instance: two instances that agree on them make the same
    outbound calls and end with the same thresholds, whatever
    [exception_only], [disabled], [ignore_keyboard_interrupt] and
    [exception_occurred] are.  In particular [disabled] does not silence a
    threshold alert. *)
Theorem epoch_end_reads_only_thresholds :
  forall trainer env self self',
    at_epoch self = at_epoch self' ->
    at_global_step self = at_global_step self' ->
    hostname self = hostname self' ->
    events (on_train_epoch_end trainer env self) =
    events (on_train_epoch_end trainer env self') /\
    outcome (on_train_epoch_end trainer env self) =
    outcome (on_train_epoch_end trainer env self') /\
    at_epoch (final (on_train_epoch_end trainer env self)) =
    at_epoch (final (on_train_epoch_end trainer env self')) /\
    at_global_step (final (on_train_epoch_end trainer env self)) =
    at_global_step (final (on_train_epoch_end trainer env self')).
Proof.
  intros trainer env self self' He Hs Hh.
  destruct (reached (at_epoch self) (current_epoch trainer)) as [n|] eqn:Re.
  - rewrite (epoch_end_epoch_branch trainer env self n Re).
    rewrite He in Re.
    rewrite (epoch_end_epoch_branch trainer env self' n Re).
    cbn [events final outcome].
    rewrite (progress_message_hostname _ trainer env self self' Hh).
    cbn. now repeat split.
  - destruct (reached (at_global_step self) (global_step trainer)) as [m|] eqn:Rs.
    + rewrite (epoch_end_global_step_branch trainer env self m Re Rs).
      rewrite He in Re. rewrite Hs in Rs.
      rewrite (epoch_end_global_step_branch trainer env self' m Re Rs).
      cbn [events final outcome].
      rewrite (progress_message_hostname _ trainer env self self' Hh).
      cbn. now repeat split.
    + rewrite (epoch_end_else_branch trainer env self Re Rs).
      rewrite He in Re. rewrite Hs in Rs.
      rewrite (epoch_end_else_branch trainer env self' Re Rs). cbn.
      now repeat split.
Qed.

Lemma epoch_end_reads_only_thresholds_witness :
  disabled sample_self_muted = true /\
  events (on_train_epoch_end sample_trainer sample_env sample_self_muted) =
  events (on_train_epoch_end sample_trainer sample_env sample_self).
Proof.
  split; [reflexivity|].
  exact (proj1 (epoch_end_reads_only_thresholds sample_trainer sample_env
                  sample_self_muted sample_self eq_refl eq_refl eq_refl)).
Defined.

(** X6.  Every outbound call of a disabled instance comes from an epoch
    end: over any sequence of calls its [on_exception] and [teardown]
    calls make none, so the whole history is that of the epoch ends. *)
Theorem disabled_instance_only_reports_thresholds :
  forall cs self,
    disabled self = true ->
    history cs self = progress_history cs self.
Proof.
  induction cs as [|c cs IH]; intros self Hd; cbn [history progress_history].
  - reflexivity.
  - rewrite IH
      by (destruct (call_keeps_configuration c self) as (_ & E & _); congruence).
    f_equal.
    destruct c as [trainer env | trainer env exception | trainer env stage];
      cbn [is_epoch_end call].
    + reflexivity.
    + now rewrite (on_exception_disabled trainer env exception self Hd).
    + now apply teardown_when_disabled.
Qed.

Lemma disabled_instance_only_reports_thresholds_witness :
  disabled sample_self_muted = true /\
  history [OnException sample_trainer sample_env runtime_error;
           EpochEnd sample_trainer sample_env;
           Teardown sample_trainer sample_env "fit"] sample_self_muted =
  [Alert (progress_message (epoch_title 3) sample_trainer sample_env
            sample_self_muted)].
Proof.
  split; [reflexivity|].
  rewrite (disabled_instance_only_reports_thresholds _ sample_self_muted eq_refl).
  reflexivity.
Defined.

(** ** [on_exception] *)

(** X7.  When the instance is not disabled and the exception is not a
    [KeyboardInterrupt], or [ignore_keyboard_interrupt] is off,
    [on_exception] sends exactly one alert, which opens with the title
    "Exception Occurred" and the stack trace in a literal block; it prints
    nothing, sets [exception_occurred], and leaves the thresholds and the
    configuration alone.  This holds whether or not an exception was seen
    before. *)
Theorem exception_is_alerted :
  forall trainer env exception self,
    disabled self = false ->
    isinstance exception KeyboardInterrupt = false \/
    ignore_keyboard_interrupt self = false ->
    let r := on_exception trainer env exception self in
    events r = [Alert (exception_message trainer env self)] /\
    (exists rest,
        exception_message trainer env self =
        "*Exception Occurred*```" ++ format_exc env ++ "```" ++ rest) /\
    final r = set_exception_occurred true self /\
    outcome r = Raised exception.
Proof.
  intros trainer env exception self Hd Hk r. subst r.
  assert (Hc : isinstance exception KeyboardInterrupt
               && ignore_keyboard_interrupt self = false).
  { destruct Hk as [-> | ->]; [reflexivity | apply andb_false_r]. }
  rewrite (on_exception_alerted trainer env exception self Hd Hc). cbn.
  repeat split. unfold exception_message. cbn. eexists. reflexivity.
Qed.

Lemma exception_is_alerted_witness :
  disabled sample_self_unset = false /\
  ignore_keyboard_interrupt sample_self_unset = false /\
  events (on_exception sample_trainer sample_env keyboard_interrupt
            sample_self_unset) =
  [Alert (exception_message sample_trainer sample_env sample_self_unset)].
Proof.
  split; [reflexivity|]. split; [reflexivity|].
  refine (proj1 (exception_is_alerted sample_trainer sample_env keyboard_interrupt
                   sample_self_unset eq_refl _)).
  right. reflexivity.
Defined.

(** X8.  After an exception was alerted, no [teardown] sends the
    completion alert any more, whatever hooks run in between and on
    whatever rank. *)
Theorem alerted_exception_silences_teardown :
  forall trainer env exception self,
    disabled self = false ->
    isinstance exception KeyboardInterrupt = false \/
    ignore_keyboard_interrupt self = false ->
    forall cs trainer' env' stage,
      events (teardown trainer' env' stage
                (after cs (final (on_exception trainer env exception self)))) = [].
Proof.
  intros trainer env exception self Hd Hk cs trainer' env' stage.
  apply teardown_after_exception. apply after_keeps_exception_occurred.
  assert (Hc : isinstance exception KeyboardInterrupt
               && ignore_keyboard_interrupt self = false).
  { destruct Hk as [-> | ->]; [reflexivity | apply andb_false_r]. }
  now rewrite (on_exception_alerted trainer env exception self Hd Hc).
Qed.

Lemma alerted_exception_silences_teardown_witness :
  disabled sample_self_unset = false /\
  isinstance runtime_error KeyboardInterrupt = false /\
  events (teardown later_trainer sample_env "fit"
            (after [EpochEnd later_trainer sample_env]
               (final (on_exception sample_trainer sample_env runtime_error
                         sample_self_unset)))) = [].
Proof.
  split; [reflexivity|]. split; [reflexivity|].
  apply (alerted_exception_silences_teardown sample_trainer sample_env
           runtime_error sample_self_unset eq_refl).
  left. reflexivity.
Defined.

(** X9.  The time in the exception alert is the clock's reading cut to
    the second, printed as [YYYY-MM-DD HH:MM:SS] like the time of the other
    alerts, whatever the microseconds of the clock. *)
Theorem exception_time_has_second_precision :
  forall trainer env self,
    exception_message trainer env self =
    "*Exception Occurred*```" ++ format_exc env ++ "```" ++ nl ++
    "Host: " ++ hostname self ++ nl ++ "Device: " ++ root_device trainer ++ nl ++
    "Time: " ++ strftime_ymd_hms (now env).
Proof.
  intros trainer env self. unfold exception_message, str_datetime.
  cbn [microsecond replace_microsecond]. rewrite string_append_nil_r.
  reflexivity.
Qed.

(** ** [on_train_epoch_end] over several epochs *)

(** X10.  When both thresholds are reached at one epoch end, the
    global-step alert is put off, not dropped: the next epoch end at which
    the global step is still reached sends it, naming the threshold, and
    after that neither threshold is set. *)
Theorem global_step_alert_is_deferred :
  forall trainer env self n m trainer' env',
    at_epoch self = Some n -> current_epoch trainer >= n ->
    at_global_step self = Some m -> global_step trainer >= m ->
    global_step trainer' >= m ->
    let first := on_train_epoch_end trainer env self in
    let second := on_train_epoch_end trainer' env' (final first) in
    events second =
      [Alert (progress_message (global_step_title m) trainer' env' self)] /\
    at_epoch (final second) = None /\
    at_global_step (final second) = None.
Proof.
  intros trainer env self n m trainer' env' He Hge Hs Hgs Hgs' first second.
  subst second first.
  assert (R1 : reached (at_epoch self) (current_epoch trainer) = Some n)
    by now apply reached_Some.
  rewrite (epoch_end_epoch_branch trainer env self n R1). cbn [final].
  assert (R2 : reached (at_epoch (set_at_epoch None self))
                 (current_epoch trainer') = None) by reflexivity.
  assert (R3 : reached (at_global_step (set_at_epoch None self))
                 (global_step trainer') = Some m)
    by (apply reached_Some; split; [exact Hs | exact Hgs']).
  rewrite (epoch_end_global_step_branch trainer' env' _ m R2 R3).
  cbn. now repeat split.
Qed.

Lemma global_step_alert_is_deferred_witness :
  at_epoch sample_self = Some 3 /\ current_epoch sample_trainer >= 3 /\
  at_global_step sample_self = Some 1000 /\ global_step sample_trainer >= 1000 /\
  global_step later_trainer >= 1000 /\
  events (on_train_epoch_end later_trainer sample_env
            (final (on_train_epoch_end sample_trainer sample_env sample_self))) =
  [Alert (progress_message (global_step_title 1000) later_trainer sample_env
            sample_self)].
Proof.
  split; [reflexivity|]. split; [cbn; lia|]. split; [reflexivity|].
  split; [cbn; lia|]. split; [cbn; lia|].
  refine (proj1 (global_step_alert_is_deferred sample_trainer sample_env
                   sample_self 3 1000 later_trainer sample_env
                   eq_refl _ eq_refl _ _)); cbn; lia.
Defined.

(** X11.  When the global-step threshold fires before the epoch
    threshold is reached, [at_epoch] is left set, and the first later
    epoch end that reaches it sends the epoch alert. *)
Theorem global_step_first_keeps_epoch_armed :
  forall trainer env self n m trainer' env',
    at_epoch self = Some n -> current_epoch trainer < n ->
    at_global_step self = Some m -> global_step trainer >= m ->
    current_epoch trainer' >= n ->
    let first := on_train_epoch_end trainer env self in
    let second := on_train_epoch_end trainer' env' (final first) in
    events first =
      [Alert (progress_message (global_step_title m) trainer env self)] /\
    at_epoch (final first) = Some n /\
    at_global_step (final first) = None /\
    events second =
      [Alert (progress_message (epoch_title n) trainer' env' self)].
Proof.
  intros trainer env self n m trainer' env' He Hlt Hs Hgs Hge' first second.
  subst second first.
  assert (R1 : reached (at_epoch self) (current_epoch trainer) = None)
    by (apply reached_None; right; exists n; split; [exact He | exact Hlt]).
  assert (R2 : reached (at_global_step self) (global_step trainer) = Some m)
    by now apply reached_Some.
  rewrite (epoch_end_global_step_branch trainer env self m R1 R2). cbn [final events].
  assert (R3 : reached (at_epoch (set_at_global_step None self))
                 (current_epoch trainer') = Some n)
    by (apply reached_Some; split; [exact He | exact Hge']).
  rewrite (epoch_end_epoch_branch trainer' env' _ n R3).
  cbn. now repeat split.
Qed.

Lemma global_step_first_keeps_epoch_armed_witness :
  at_epoch sample_self_step = Some 10 /\ current_epoch sample_trainer < 10 /\
  at_global_step sample_self_step = Some 1000 /\
  global_step sample_trainer >= 1000 /\ current_epoch later_trainer >= 10 /\
  events (on_train_epoch_end later_trainer sample_env
            (final (on_train_epoch_end sample_trainer sample_env sample_self_step))) =
  [Alert (progress_message (epoch_title 10) later_trainer sample_env
            sample_self_step)].
Proof.
  split; [reflexivity|]. split; [cbn; lia|]. split; [reflexivity|].
  split; [cbn; lia|]. split; [cbn; lia|].
  refine (proj2 (proj2 (proj2
    (global_step_first_keeps_epoch_armed sample_trainer sample_env
       sample_self_step 10 1000 later_trainer sample_env
       eq_refl _ eq_refl _ _)))); cbn; lia.
Defined.

(** X12.  [on_exception] and [teardown] never touch the thresholds: over
    a sequence of calls without an epoch end, [at_epoch] and
    [at_global_step] stay as they are. *)
Theorem thresholds_change_only_at_epoch_end :
  forall cs self,
    forallb (fun c => negb (is_epoch_end c)) cs = true ->
    at_epoch (after cs self) = at_epoch self /\
    at_global_step (after cs self) = at_global_step self.
Proof.
  induction cs as [|c cs IH]; intros self H; cbn [after].
  - split; reflexivity.
  - cbn [forallb] in H. apply andb_true_iff in H. destruct H as [Hc Hcs].
    apply negb_true_iff in Hc.
    destruct (IH (final (call c self)) Hcs) as [E1 E2].
    destruct (other_hooks_keep_thresholds c self Hc) as [F1 F2].
    split; congruence.
Qed.

Lemma thresholds_change_only_at_epoch_end_witness :
  forallb (fun c => negb (is_epoch_end c))
    [OnException sample_trainer sample_env runtime_error;
     Teardown sample_trainer sample_env "fit"] = true /\
  at_epoch (after [OnException sample_trainer sample_env runtime_error;
                   Teardown sample_trainer sample_env "fit"] sample_self) = Some 3 /\
  at_global_step (after [OnException sample_trainer sample_env runtime_error;
                         Teardown sample_trainer sample_env "fit"] sample_self)
  = Some 1000.
Proof.
  split; [reflexivity|].
  apply (thresholds_change_only_at_epoch_end
           [OnException sample_trainer sample_env runtime_error;
            Teardown sample_trainer sample_env "fit"] sample_self).
  reflexivity.
Defined.

(** X13.  Only [on_exception] assigns [exception_occurred]: over a
    sequence of calls without an exception it keeps its value. *)
Theorem exception_flag_changes_only_in_on_exception :
  forall cs self,
    forallb (fun c => negb (is_on_exception c)) cs = true ->
    exception_occurred (after cs self) = exception_occurred self.
Proof.
  intros cs self H. now apply after_without_exception.
Qed.

Lemma exception_flag_changes_only_in_on_exception_witness :
  forallb (fun c => negb (is_on_exception c))
    [EpochEnd sample_trainer sample_env;
     Teardown sample_trainer sample_env "fit";
     EpochEnd later_trainer sample_env] = true /\
  exception_occurred (after [EpochEnd sample_trainer sample_env;
                             Teardown sample_trainer sample_env "fit";
                             EpochEnd later_trainer sample_env] sample_self) = false.
Proof.
  split; [reflexivity|].
  apply (exception_flag_changes_only_in_on_exception
           [EpochEnd sample_trainer sample_env;
            Teardown sample_trainer sample_env "fit";
            EpochEnd later_trainer sample_env] sample_self).
  reflexivity.
Defined.

(** ** From construction to teardown *)

(** X14.  A newly constructed instance has seen no exception.  Built
    with [exception_only] and [disabled] off, it sends the completion alert
    at a rank-zero [teardown] after any calls that include no exception,
    with the host name read at construction.  Built with either of the two
    on, no [teardown] ever alerts, whatever happened in between. *)
Theorem construction_decides_completion_alert :
  forall env exception_only disabled ignore at_epoch at_global_step
         cs trainer env' stage,
    let self := init env exception_only disabled ignore at_epoch at_global_step in
    exception_occurred self = false /\
    hostname self = gethostname env /\
    (exception_only = false -> disabled = false ->
     forallb (fun c => negb (is_on_exception c)) cs = true ->
     rank env' = 0%nat ->
     events (teardown trainer env' stage (after cs self)) =
     [Alert (teardown_message trainer env' stage self)]) /\
    (exception_only = true \/ disabled = true ->
     events (teardown trainer env' stage (after cs self)) = []).
Proof.
  intros env eo d ignore ae ag cs trainer env' stage self.
  split; [reflexivity|]. split; [reflexivity|].
  pose proof (configuration_never_changes_aux cs self) as (C1 & C2 & _ & C4 & _).
  split.
  - intros -> -> Hcs Hr.
    rewrite (teardown_rank_zero trainer env' stage _ Hr), teardown_body_run.
    cbn [events].
    rewrite (teardown_message_hostname trainer env' stage _ self C4).
    unfold completion_wanted.
    rewrite C1, C2, (after_without_exception cs self Hcs). reflexivity.
  - intros H. hook_paths; [|reflexivity].
    unfold completion_wanted. rewrite C1, C2. cbn.
    destruct H as [-> | ->]; cbn; [reflexivity | now rewrite andb_false_r].
Qed.

Lemma construction_decides_completion_alert_witness :
  let self := init sample_env false false false (Some 3) None in
  let cs := [EpochEnd sample_trainer sample_env; EpochEnd later_trainer sample_env] in
  forallb (fun c => negb (is_on_exception c)) cs = true /\
  rank sample_env = 0%nat /\
  events (teardown later_trainer sample_env "fit" (after cs self)) =
  [Alert (teardown_message later_trainer sample_env "fit" self)].
Proof.
  intros self cs. split; [reflexivity|]. split; [reflexivity|].
  exact (proj1 (proj2 (proj2
    (construction_decides_completion_alert sample_env false false false (Some 3)
       None cs later_trainer sample_env "fit")))
    eq_refl eq_refl eq_refl eq_refl).
Defined.

(** X15.  The only [print] is the notice of the suppressed path: an
    instance with [ignore_keyboard_interrupt] off, or one that is disabled,
    prints nothing over any sequence of calls. *)
Theorem no_print_without_ignore_flag :
  forall cs self,
    ignore_keyboard_interrupt self = false \/ disabled self = true ->
    prints (history cs self) = [].
Proof.
  induction cs as [|c cs IH]; intros self H; cbn [history].
  - reflexivity.
  - unfold prints in *. rewrite filter_app.
    destruct (call_keeps_configuration c self) as (_ & E2 & E3 & _).
    rewrite IH by (rewrite E2, E3; exact H).
    rewrite app_nil_r.
    destruct c as [trainer env | trainer env exception | trainer env stage];
      cbn [call]; hook_paths; try reflexivity.
    + exfalso. destruct H as [H | H]; [|congruence].
      rewrite H, andb_false_r in Hk. discriminate Hk.
    + destruct (completion_wanted self); reflexivity.
Qed.

Lemma no_print_without_ignore_flag_witness :
  ignore_keyboard_interrupt sample_self_unset = false /\
  prints (history [OnException sample_trainer sample_env keyboard_interrupt;
                   Teardown sample_trainer sample_env "fit"] sample_self_unset) = [].
Proof.
  split; [reflexivity|].
  apply (no_print_without_ignore_flag _ sample_self_unset).
  left. reflexivity.
Defined.
